(** * ci-test: the HTTP service of [src/index.js]

    A shallow embedding of the Express application in [src/index.js]:
    the resolution of [PORT], [NODE_ENV] and [LOG_LEVEL] from the process
    environment, the loading of the per-environment configuration record
    with its fallback, the four GET routes, the error-handling middleware
    and the catch-all 404 handler, followed by the properties of the
    service that the specification states.

    What belongs to Node and Express rather than to [index.js] is
    modelled at the level of its documented contract:
    - JavaScript values, truthiness, [||], [.] and [?.];
    - [require] of a JSON file, as a function of the host that either
      raises or yields the parsed value;
    - the router: layers are tried in registration order, a route layer
      answers a GET request whose path name matches (case-insensitive,
      optional trailing slash: Express's default settings), an exception
      raised by a layer is handed to the next error-handling middleware;
    - the process clock behind [process.uptime()], a monotonic counter.

    Requests are GET requests given by their target ([req.originalUrl],
    in origin form). [helmet()], the non-preflight path of [cors()] and
    the body parsers only decorate such a request and pass it on, so they
    appear in the start-up sequence but not in the router stack; what
    Express itself answers to a target it cannot parse or decode is left
    out as well. Output on stdout ([console.log] in the listen callback
    and in the signal handlers) is not modelled; [console.warn] and
    [console.error] are. *)

From Stdlib Require Import QArith Ascii Sorted.
From stdpp Require Import base option strings list gmap.

Open Scope string_scope.
Open Scope list_scope.

(** ** JavaScript values *)

Module Js.

(** The values [index.js] handles: what [JSON.parse] produces, plus
    [undefined]. Numbers are rationals: every JSON numeral denotes one,
    and the only question the code asks of a number is whether it is
    zero. An object is a finite map from property names to values. *)
#[warnings="-register-all"] Inductive value : Type :=
  | VUndefined
  | VNull
  | VBool (b : bool)
  | VNum (q : Q)
  | VStr (s : string)
  | VArr (l : list value)
  | VObj (m : gmap string value).

(** An [Error] object, as far as the code looks at it. *)
Record error : Type := Error { error_name : string; message : string }.

(** ToBoolean. *)
Definition truthy (v : value) : bool :=
  match v with
  | VUndefined | VNull => false
  | VBool b => b
  | VNum q => negb (Qeq_bool q 0)
  | VStr s => negb (String.eqb s "")
  | VArr _ | VObj _ => true
  end.

(** [a || b] *)
Definition js_or (a b : value) : value := if truthy a then a else b.

(** [o?.k] for a property name [k] that no prototype defines (the code
    uses [cors], [newUI], [advancedAnalytics] and [betaFeatures]). *)
Definition opt_member (o : value) (k : string) : value :=
  match o with
  | VObj m => default VUndefined (m !! k)
  | _ => VUndefined
  end.

Definition type_of_nullish (o : value) : string :=
  match o with VNull => "null" | _ => "undefined" end.

(** [o.k], same proviso on [k] (the code uses [security], [features]
    and [app]): a TypeError on [null] and [undefined]. *)
Definition member (o : value) (k : string) : error + value :=
  match o with
  | VUndefined | VNull =>
      inl (Error "TypeError"
             ("Cannot read properties of " +:+ type_of_nullish o
              +:+ " (reading '" +:+ k +:+ "')"))
  | _ => inr (opt_member o k)
  end.

(** An object literal. *)
Definition obj (fields : list (string * value)) : value :=
  VObj (list_to_map fields).

Definition is_boolean (v : value) : Prop := ∃ b, v = VBool b.

End Js.

Import Js.

(** ** The process *)

(** Where a [console.warn] or [console.error] call leaves its trace. *)
Inductive log_entry : Type :=
  | Warn (text : string)
  | LogError (label : string) (err : error).

(** What the host gives the module when it is loaded: [process.env] as
    it stands after [require('dotenv').config()], the outcome of
    [require] on a path, and the clocks at that instant. *)
Record host : Type := Host {
  process_env : gmap string string;
  require_json : string → error + value;
  boot_elapsed : N;
  boot_wall : string
}.

(** The module-level bindings of [index.js] together with the part of the
    process they read and write. [hr_elapsed] is the monotonic clock
    behind [process.uptime()], in nanoseconds since the process started;
    [wall_clock] is what [new Date().toISOString()] yields now. *)
Record state : Type := State {
  env : gmap string string;
  PORT : value;
  NODE_ENV : string;
  LOG_LEVEL : string;
  config : value;
  cors_options : value;
  listening : value;
  hr_elapsed : N;
  wall_clock : string;
  console : list log_entry
}.

(** Code that reads and writes the state and may raise: a raise keeps the
    writes made before it. *)
Definition M (A : Type) : Type := state → (error + A) * state.

#[global] Instance M_ret : MRet M := λ A (a : A) st, (inr a, st).

#[global] Instance M_bind : MBind M := λ A B (k : A → M B) (m : M A) st,
  match m st with
  | (inr a, st') => k a st'
  | (inl e, st') => (inl e, st')
  end.

Definition gets {A : Type} (proj : state → A) : M A := λ st, (inr (proj st), st).

Definition lift {A : Type} (r : error + A) : M A := λ st, (r, st).

(** [try { body } catch (e) { handler(e) }] *)
Definition try_catch {A : Type} (body : M A) (handler : error → M A) : M A := λ st,
  match body st with
  | (inr a, st') => (inr a, st')
  | (inl e, st') => handler e st'
  end.

(** A state with more written to its console and nothing else changed. *)
Definition logged (st : state) (written : list log_entry) : state :=
  State (env st) (PORT st) (NODE_ENV st) (LOG_LEVEL st) (config st)
    (cors_options st) (listening st) (hr_elapsed st) (wall_clock st)
    (console st ++ written).

Definition console_write (entry : log_entry) : M unit := λ st,
  (inr tt, logged st [entry]).

(** [process.env.NAME]: a string, or [undefined] when the variable is not
    set. *)
Definition getenv (e : gmap string string) (name : string) : value :=
  match e !! name with
  | Some s => VStr s
  | None => VUndefined
  end.

(** [process.env.NAME || fallback] where the fallback is a string. *)
Definition getenv_or (e : gmap string string) (name fallback : string) : string :=
  match js_or (getenv e name) (VStr fallback) with
  | VStr s => s
  | _ => fallback
  end.

(** [new Date().toISOString()] *)
Definition date_now_iso : M string := gets wall_clock.

(** Nanoseconds as seconds. *)
Definition seconds (ns : N) : Q := Z.of_N ns # 1000000000.

(** [process.uptime()]: seconds since the process started. *)
Definition process_uptime : M value :=
  gets (λ st, VNum (seconds (hr_elapsed st))).

(** ** Responses *)

Inductive body : Type :=
  | Json (v : value)
  | Html.

Record response : Type := Response { status : nat; payload : body }.

(** [res.status(code).json(v)] *)
Definition res_json (code : nat) (v : value) : response := Response code (Json v).

(** A field of a JSON body; [undefined] when there is none. *)
Definition field (r : response) (k : string) : value :=
  match payload r with
  | Json v => opt_member v k
  | Html => VUndefined
  end.

(** ** Loading the configuration (lines 7-22) *)

Definition resolve_PORT (e : gmap string string) : value :=
  js_or (getenv e "PORT") (VNum 3000).

Definition resolve_NODE_ENV (e : gmap string string) : string :=
  getenv_or e "NODE_ENV" "development".

Definition resolve_LOG_LEVEL (e : gmap string string) : string :=
  getenv_or e "LOG_LEVEL" "info".

Definition config_path (node_env : string) : string :=
  "../config/environments/" +:+ node_env +:+ ".json".

Definition default_config (port : value) : value :=
  obj [ ("app", obj [("name", VStr "ci-test"); ("port", port)]);
        ("features", obj []);
        ("logging", obj [("level", VStr "info")]) ].

Definition no_config_warning (node_env : string) : log_entry :=
  Warn ("No config found for environment: " +:+ node_env +:+ ", using defaults").

(** The [try]/[catch] around [require]: the record and what was written
    to the console. *)
Definition load_config (h : host) (node_env : string) (port : value)
  : value * list log_entry :=
  match require_json h (config_path node_env) with
  | inr parsed => (parsed, [])
  | inl _ => (default_config port, [no_config_warning node_env])
  end.

(** ** Start-up (lines 7-30 and 119) *)

(** The module body up to [app.listen(PORT, ...)]. An exception that
    escapes it ends the process before it listens; the one place that can
    raise is [config.security] on line 26. *)
Definition main (h : host) : error + state :=
  let e := process_env h in
  let port := resolve_PORT e in
  let node_env := resolve_NODE_ENV e in
  let log_level := resolve_LOG_LEVEL e in
  let '(cfg, written) := load_config h node_env port in
  match member cfg "security" with
  | inl err => inl err
  | inr security =>
      inr (State e port node_env log_level cfg
             (js_or (opt_member security "cors") (obj []))
             port (boot_elapsed h) (boot_wall h) written)
  end.

(** ** Requests and route matching *)

(** A GET request, by its target. *)
Record request : Type := Request { originalUrl : string }.

(** The path name of a target: what precedes the first [?]. *)
Fixpoint pathname (url : string) : string :=
  match url with
  | EmptyString => EmptyString
  | String c rest =>
      if Ascii.eqb c "?"%char then EmptyString else String c (pathname rest)
  end.

Definition lower_ascii (c : ascii) : ascii :=
  let n := N_of_ascii c in
  if ((65 <=? n) && (n <=? 90))%N then ascii_of_N (n + 32) else c.

Fixpoint lower (s : string) : string :=
  match s with
  | EmptyString => EmptyString
  | String c rest => String (lower_ascii c) (lower rest)
  end.

(** A pattern without its final [/], if it has one. *)
Fixpoint stem (pattern : string) : string :=
  match pattern with
  | EmptyString => EmptyString
  | String c EmptyString => if Ascii.eqb c "/"%char then EmptyString else pattern
  | String c rest => String c (stem rest)
  end.

(** Express's matching of a path name against a parameterless route
    pattern under its default settings: letter case is ignored and one
    trailing [/] is optional. *)
Definition route_matches (pattern path : string) : bool :=
  let p := lower path in
  let s := stem (lower pattern) in
  String.eqb p s || String.eqb p (s +:+ "/").

(** ** The handlers (lines 32-99) *)

(** [app.get('/health', ...)] *)
Definition health (req : request) : M response :=
  timestamp ← date_now_iso;
  environment ← gets NODE_ENV;
  e ← gets env;
  uptime ← process_uptime;
  logLevel ← gets LOG_LEVEL;
  port ← gets PORT;
  mret (res_json 200 (obj [
    ("status", VStr "healthy");
    ("timestamp", VStr timestamp);
    ("environment", VStr environment);
    ("version", VStr (getenv_or e "npm_package_version" "1.0.0"));
    ("uptime", uptime);
    ("config", obj [("logLevel", VStr logLevel); ("port", port)]) ])).

(** [app.get('/features', ...)] *)
Definition features (req : request) : M response :=
  environment ← gets NODE_ENV;
  cfg ← gets config;
  stored ← lift (member cfg "features");
  mret (res_json 200 (obj [
    ("environment", VStr environment);
    ("features", js_or stored (obj []));
    ("message", VStr "Feature flags configuration") ])).

(** [config.features?.flag || false] *)
Definition flag_or_false (cfg : value) (flag : string) : M value :=
  stored ← lift (member cfg "features");
  mret (js_or (opt_member stored flag) (VBool false)).

(** [app.get('/', ...)] *)
Definition root (req : request) : M response :=
  environment ← gets NODE_ENV;
  timestamp ← date_now_iso;
  logLevel ← gets LOG_LEVEL;
  cfg ← gets config;
  newUI ← flag_or_false cfg "newUI";
  advancedAnalytics ← flag_or_false cfg "advancedAnalytics";
  betaFeatures ← flag_or_false cfg "betaFeatures";
  mret (res_json 200 (obj [
    ("message", VStr "Welcome to Trunk-Based Development CI/CD Pipeline!");
    ("environment", VStr environment);
    ("timestamp", VStr timestamp);
    ("logLevel", VStr logLevel);
    ("features", obj [
       ("newUI", newUI);
       ("advancedAnalytics", advancedAnalytics);
       ("betaFeatures", betaFeatures) ]) ])).

(** [app.get('/api/status', ...)] *)
Definition api_status (req : request) : M response :=
  environment ← gets NODE_ENV;
  cfg ← gets config;
  app ← lift (member cfg "app");
  timestamp ← date_now_iso;
  mret (res_json 200 (obj [
    ("status", VStr "operational");
    ("environment", VStr environment);
    ("config", js_or app (obj []));
    ("timestamp", VStr timestamp) ])).

(** The error-handling middleware, [app.use((err, req, res, next) => ...)] *)
Definition error_middleware (err : error) (req : request) : M response :=
  _ ← console_write (LogError "Error:" err);
  environment ← gets NODE_ENV;
  mret (res_json 500 (obj [
    ("error", VStr "Internal Server Error");
    ("message", VStr (if String.eqb environment "development"
                      then message err
                      else "Something went wrong")) ])).

(** The 404 handler, [app.use('*', ...)] *)
Definition not_found (req : request) : M response :=
  timestamp ← date_now_iso;
  mret (res_json 404 (obj [
    ("error", VStr "Not Found");
    ("message", VStr ("Route " +:+ originalUrl req +:+ " not found"));
    ("timestamp", VStr timestamp) ])).

(** ** The router *)

Inductive layer : Type :=
  | Get (pattern : string) (handler : request → M response)
  | UseError (handler : error → request → M response)
  | UseAll (handler : request → M response).

(** Express walks the layers in registration order. Without a pending
    error it runs the first layer that matches and is not an
    error-handling middleware; with one it runs the next error-handling
    middleware. What a layer raises becomes the pending error. When the
    layers run out Express's own final handler answers: 404 without an
    error, 500 with one, and an HTML page either way. *)
Fixpoint dispatch (stack : list layer) (pending : option error) (req : request)
  : M response :=
  match stack, pending with
  | [], None => mret (Response 404 Html)
  | [], Some _ => mret (Response 500 Html)
  | Get pattern handler :: rest, None =>
      if route_matches pattern (pathname (originalUrl req))
      then try_catch (handler req) (λ e, dispatch rest (Some e) req)
      else dispatch rest None req
  | UseAll handler :: rest, None =>
      try_catch (handler req) (λ e, dispatch rest (Some e) req)
  | UseError handler :: rest, Some err =>
      try_catch (handler err req) (λ e, dispatch rest (Some e) req)
  | _ :: rest, _ => dispatch rest pending req
  end.

(** The layers in the order [index.js] registers them. *)
Definition app_stack : list layer :=
  [ Get "/health" health;
    Get "/features" features;
    Get "/" root;
    Get "/api/status" api_status;
    UseError error_middleware;
    UseAll not_found ].

Definition serve (req : request) : M response := dispatch app_stack None req.

(** The routes among the layers, each pattern with its handler. *)
Definition route_table : list (string * (request → M response)) :=
  [ ("/health", health);
    ("/features", features);
    ("/", root);
    ("/api/status", api_status) ].

(** The four route patterns. *)
Definition routes : list string := ["/"; "/health"; "/features"; "/api/status"].

Definition unrouted (url : string) : bool :=
  forallb (λ pattern, negb (route_matches pattern (pathname url))) routes.

(** ** Runs of the process *)

(** Between two requests time passes: the monotonic clock advances by
    some number of nanoseconds and the wall clock reads whatever it then
    reads. *)
Inductive event : Type :=
  | Elapse (ns : N) (wall : string)
  | Incoming (req : request).

Definition elapse (ns : N) (wall : string) (st : state) : state :=
  State (env st) (PORT st) (NODE_ENV st) (LOG_LEVEL st) (config st)
    (cors_options st) (listening st) (hr_elapsed st + ns) wall (console st).

(** What a request was answered with; [None] stands for an exception that
    nothing caught, which [serve] never produces (see [serve_total]). *)
Definition exchange : Type := request * option response.

Definition step (ev : event) (st : state) : list exchange * state :=
  match ev with
  | Elapse ns wall => ([], elapse ns wall st)
  | Incoming req =>
      match serve req st with
      | (inr r, st') => ([(req, Some r)], st')
      | (inl _, st') => ([(req, None)], st')
      end
  end.

Fixpoint run (evs : list event) (st : state) : list exchange * state :=
  match evs with
  | [] => ([], st)
  | ev :: rest =>
      let '(xs, st') := step ev st in
      let '(ys, st'') := run rest st' in
      (xs ++ ys, st'')
  end.

(** The state a run ends in, and the answer to one more request. *)
Definition state_after (evs : list event) (st : state) : state := (run evs st).2.

Definition answer (req : request) (st : state) : option response :=
  match serve req st with
  | (inr r, _) => Some r
  | (inl _, _) => None
  end.

(** ** Vocabulary of the properties *)

(** Neither [null] nor [undefined]: a value whose properties can be read. *)
Definition live (v : value) : bool :=
  match v with
  | VUndefined | VNull => false
  | _ => true
  end.

(** The three flags that [GET /] reports. *)
Definition flag_names : list string := ["newUI"; "advancedAnalytics"; "betaFeatures"].

(** What the configuration record stores for a flag; [undefined] when the
    record has no [features] object or the object has no such flag. *)
Definition stored_flag (cfg : value) (flag : string) : value :=
  opt_member (opt_member cfg "features") flag.

(** The flag map of a record: its [features] object, or the empty map
    when that field is missing or holds another falsy value; none when
    the field holds anything else. *)
Definition flag_map (cfg : value) : option (gmap string value) :=
  match opt_member cfg "features" with
  | VObj m => Some m
  | v => if truthy v then None else Some ∅
  end.

(** The [features] map of a response body. *)
Definition flags_of (r : response) : gmap string value :=
  match field r "features" with
  | VObj m => m
  | _ => ∅
  end.

(** The map [GET /] builds from the values of the three flags. *)
Definition three_flags (value_of : string → value) : gmap string value :=
  list_to_map ((λ flag, (flag, value_of flag)) <$> flag_names).

(** The value a response reports for a flag. *)
Definition reported_flag (r : response) (flag : string) : value :=
  opt_member (field r "features") flag.


(** The three module-level bindings the handlers share. *)
Definition same_bindings (a b : state) : Prop :=
  config a = config b ∧ NODE_ENV a = NODE_ENV b ∧ LOG_LEVEL a = LOG_LEVEL b.

(** Everything [main] bound, as opposed to the clocks and the console. *)
Definition same_module (a b : state) : Prop :=
  env a = env b ∧ PORT a = PORT b ∧ NODE_ENV a = NODE_ENV b
  ∧ LOG_LEVEL a = LOG_LEVEL b ∧ config a = config b
  ∧ cors_options a = cors_options b ∧ listening a = listening b.

(** A handler as a state transformer. *)
Definition effect {A : Type} (m : M A) (st : state) : state := (m st).2.

(** The exchanges of a run that went through the [/health] route. *)
Definition is_health (x : exchange) : bool :=
  route_matches "/health" (pathname (originalUrl x.1)).

(** The [uptime] fields of the [/health] answers of a run, in order. *)
Definition health_uptimes (xs : list exchange) : list value :=
  omap (λ x : exchange,
          if is_health x then Some (from_option (λ r, field r "uptime") VUndefined x.2)
          else None) xs.

(** ** Hosts used as examples *)

Definition module_not_found (path : string) : error :=
  Error "Error" ("Cannot find module '" +:+ path +:+ "'").

(** No environment variable set and no configuration file at all. *)
Definition bare_host : host :=
  Host ∅ (λ path, inl (module_not_found path)) 120000000 "2024-05-01T10:00:00.000Z".

(** [NODE_ENV=ghost] and no configuration file for it. *)
Definition ghost_host : host :=
  Host {[ "NODE_ENV" := "ghost" ]} (λ path, inl (module_not_found path))
    120000000 "2024-05-01T10:00:00.000Z".

Definition staging_record : value :=
  obj [ ("app", obj [("name", VStr "ci-test-staging"); ("port", VNum 8080)]);
        ("features", obj [("newUI", VBool true);
                          ("advancedAnalytics", VBool true);
                          ("betaFeatures", VBool false);
                          ("darkMode", VBool true)]);
        ("logging", obj [("level", VStr "debug")]);
        ("security", obj [("cors", obj [("origin", VStr "*")])]) ].

(** [NODE_ENV=staging] with a well-formed record for it. *)
Definition staging_host : host :=
  Host {[ "NODE_ENV" := "staging"; "PORT" := "8080"; "LOG_LEVEL" := "debug" ]}
    (λ path, if String.eqb path "../config/environments/staging.json"
             then inr staging_record
             else inl (module_not_found path))
    95000000 "2024-05-01T10:00:00.000Z".

Definition odd_record : value :=
  obj [ ("features", obj [("newUI", VStr "yes");
                          ("advancedAnalytics", VNum 0);
                          ("betaFeatures", VNull)]) ].

(** [NODE_ENV=local] with a record whose flags are not booleans. *)
Definition odd_host : host :=
  Host {[ "NODE_ENV" := "local" ]}
    (λ path, if String.eqb path "../config/environments/local.json"
             then inr odd_record
             else inl (module_not_found path))
    95000000 "2024-05-01T10:00:00.000Z".

(** [NODE_ENV=broken] with a file that holds the JSON text [null]. *)
Definition null_host : host :=
  Host {[ "NODE_ENV" := "broken" ]} (λ path, inr VNull)
    95000000 "2024-05-01T10:00:00.000Z".

(** A state that [main] never produces: the record is [null]. *)
Definition null_config_state : state :=
  State ∅ (VNum 3000) "development" "info" VNull (obj []) (VNum 3000)
    0 "2024-05-01T10:00:00.000Z" [].

(** ** Vocabulary of the further properties *)

(** The time a run lets pass, and the last wall-clock reading it sets. *)
Fixpoint total_ns (evs : list event) : N :=
  match evs with
  | [] => 0
  | Elapse ns _ :: rest => ns + total_ns rest
  | Incoming _ :: rest => total_ns rest
  end.

Fixpoint last_wall (evs : list event) (wall : string) : string :=
  match evs with
  | [] => wall
  | Elapse _ later :: rest => last_wall rest later
  | Incoming _ :: rest => last_wall rest wall
  end.


(** The path of a host's configuration file. *)
Definition record_path (h : host) : string :=
  config_path (resolve_NODE_ENV (process_env h)).

(** What [process.env.NAME || fallback] comes to: an empty string is
    falsy. *)
Definition set_or (variable : option string) (fallback : string) : string :=
  match variable with
  | Some EmptyString | None => fallback
  | Some s => s
  end.


(** The callback of the container's health check ([Dockerfile], the
    [HEALTHCHECK] instruction), which requests [/health] on port 3000:
    [process.exit(res.statusCode === 200 ? 0 : 1)]. *)
Definition healthcheck_exit (statusCode : nat) : Z :=
  if Nat.eqb statusCode 200 then 0 else 1.

(** What line 26 reads of the record for [cors()]. *)
Definition stored_cors (cfg : value) : value :=
  opt_member (opt_member cfg "security") "cors".

(** ** Further hosts used as examples *)

(** [NODE_ENV] and [LOG_LEVEL] set to the empty string, [PORT=8080], no
    configuration file. *)
Definition blank_host : host :=
  Host {[ "NODE_ENV" := ""; "LOG_LEVEL" := ""; "PORT" := "8080" ]}
    (λ path, inl (module_not_found path)) 95000000 "2024-05-01T10:00:00.000Z".



(** ** Proof automation *)

(** Unfolds the monad under a handler. *)
Ltac run_handler :=
  cbv [mbind mret M_bind M_ret gets lift date_now_iso process_uptime
       flag_or_false console_write];
  cbn beta iota.

(** Membership in a list that is written out. *)
Ltac listed := by repeat constructor.

(** Cases on membership in a list that is written out. *)
Ltac each_of H :=
  repeat (apply elem_of_cons in H as [H | H]);
  [.. | by apply elem_of_nil in H].

(** ** Properties *)

(** *** JavaScript values *)

Lemma member_live (v : value) (k : string) :
  live v = true → member v k = inr (opt_member v k).
Proof. by destruct v. Qed.

Lemma member_inr_live (v w : value) (k : string) :
  member v k = inr w → live v = true ∧ w = opt_member v k.
Proof. destruct v; simpl; intros H; by simplify_eq. Qed.

Lemma js_or_truthy (a b : value) : truthy a = true → js_or a b = a.
Proof. unfold js_or. by intros ->. Qed.

Lemma js_or_falsy (a b : value) : truthy a = false → js_or a b = b.
Proof. unfold js_or. by intros ->. Qed.

Lemma truthy_zero (q : Q) : (q == 0)%Q → truthy (VNum q) = false.
Proof. intros Hzero. cbn. by apply negb_false_iff, Qeq_bool_iff. Qed.

Lemma boolean_flag_or_false (m : gmap string value) (flag : string) :
  map_Forall (λ _ v, is_boolean v) m →
  js_or (default VUndefined (m !! flag)) (VBool false)
  = default (VBool false) (m !! flag).
Proof.
  intros Hbool. destruct (m !! flag) as [v |] eqn:Hlook; [| reflexivity].
  apply Hbool in Hlook as [b ->]. by destruct b.
Qed.

(** What [flag_map] says about the two ways the handlers read the flags. *)
Lemma flag_map_Some (cfg : value) (m : gmap string value) :
  flag_map cfg = Some m →
  js_or (opt_member cfg "features") (obj []) = VObj m
  ∧ ∀ flag, stored_flag cfg flag = default VUndefined (m !! flag).
Proof.
  unfold flag_map, stored_flag, js_or.
  destruct (opt_member cfg "features") as [| | [] | q | s | l | fm];
    cbn [truthy opt_member];
    try destruct (Qeq_bool q 0); try destruct (String.eqb s "");
    cbn [negb]; intros ?; simplify_eq;
    (split; [reflexivity | intros flag; by rewrite ?lookup_empty]).
Qed.

(** *** Strings and route matching *)




Lemma route_matches_cases (pattern path : string) :
  route_matches pattern path = true →
  lower path = stem (lower pattern) ∨ lower path = stem (lower pattern) +:+ "/".
Proof.
  unfold route_matches. intros H. apply orb_true_iff in H as [H | H];
    apply String.eqb_eq in H; auto.
Qed.

(** The four patterns exclude one another. *)
Lemma routes_exclusive (a b path : string) :
  a ∈ routes → b ∈ routes → a ≠ b →
  route_matches a path = true → route_matches b path = false.
Proof.
  unfold routes. intros Ha Hb Hab Hmatch.
  apply route_matches_cases in Hmatch. unfold route_matches.
  each_of Ha; each_of Hb; subst a b; try done;
    destruct Hmatch as [-> | ->]; reflexivity.
Qed.

Lemma unrouted_misses (url pattern : string) :
  unrouted url = true → pattern ∈ routes →
  route_matches pattern (pathname url) = false.
Proof.
  unfold unrouted. rewrite forallb_forall. intros Hall Hin.
  apply negb_true_iff, Hall. by apply list_elem_of_In.
Qed.


(** *** Start-up *)

Lemma main_inr (h : host) (st : state) :
  main h = inr st →
  let e := process_env h in
  live (config st) = true
  ∧ env st = e
  ∧ PORT st = resolve_PORT e
  ∧ NODE_ENV st = resolve_NODE_ENV e
  ∧ LOG_LEVEL st = resolve_LOG_LEVEL e
  ∧ listening st = resolve_PORT e
  ∧ (config st, console st)
    = load_config h (resolve_NODE_ENV e) (resolve_PORT e).
Proof.
  unfold main. destruct (load_config h _ _) as [cfg written] eqn:Hload.
  destruct (member cfg "security") as [err | security] eqn:Hmember; [done |].
  intros [= <-]. apply member_inr_live in Hmember as [Hlive _].
  cbn [config env PORT NODE_ENV LOG_LEVEL listening console].
  by rewrite <- Hload.
Qed.

Lemma main_default (h : host) (e : error) :
  require_json h (config_path (resolve_NODE_ENV (process_env h))) = inl e →
  ∃ st, main h = inr st
        ∧ config st = default_config (PORT st)
        ∧ console st = [no_config_warning (NODE_ENV st)].
Proof.
  intros Hreq. unfold main, load_config. rewrite Hreq. simpl.
  eexists. split; [reflexivity |]. done.
Qed.

(** Start-up can fail: a file that holds [null] parses, so the fallback
    is not taken, and line 26 raises on [config.security]. *)
Remark null_record_stops_main :
  main null_host
  = inl (Error "TypeError" "Cannot read properties of null (reading 'security')").
Proof. reflexivity. Qed.

(** *** What each handler returns *)

Lemma health_returns (req : request) (st : state) :
  health req st =
  (inr (res_json 200 (obj [
     ("status", VStr "healthy");
     ("timestamp", VStr (wall_clock st));
     ("environment", VStr (NODE_ENV st));
     ("version", VStr (getenv_or (env st) "npm_package_version" "1.0.0"));
     ("uptime", VNum (seconds (hr_elapsed st)));
     ("config", obj [("logLevel", VStr (LOG_LEVEL st)); ("port", PORT st)]) ])),
   st).
Proof. reflexivity. Qed.

Lemma features_returns (req : request) (st : state) :
  live (config st) = true →
  features req st =
  (inr (res_json 200 (obj [
     ("environment", VStr (NODE_ENV st));
     ("features", js_or (opt_member (config st) "features") (obj []));
     ("message", VStr "Feature flags configuration") ])),
   st).
Proof. intros Hlive. unfold features. run_handler. by rewrite member_live. Qed.

Lemma root_returns (req : request) (st : state) :
  live (config st) = true →
  root req st =
  (inr (res_json 200 (obj [
     ("message", VStr "Welcome to Trunk-Based Development CI/CD Pipeline!");
     ("environment", VStr (NODE_ENV st));
     ("timestamp", VStr (wall_clock st));
     ("logLevel", VStr (LOG_LEVEL st));
     ("features", obj [
        ("newUI", js_or (stored_flag (config st) "newUI") (VBool false));
        ("advancedAnalytics",
         js_or (stored_flag (config st) "advancedAnalytics") (VBool false));
        ("betaFeatures",
         js_or (stored_flag (config st) "betaFeatures") (VBool false)) ]) ])),
   st).
Proof. intros Hlive. unfold root. run_handler. by rewrite member_live. Qed.

Lemma api_status_returns (req : request) (st : state) :
  live (config st) = true →
  api_status req st =
  (inr (res_json 200 (obj [
     ("status", VStr "operational");
     ("environment", VStr (NODE_ENV st));
     ("config", js_or (opt_member (config st) "app") (obj []));
     ("timestamp", VStr (wall_clock st)) ])),
   st).
Proof. intros Hlive. unfold api_status. run_handler. by rewrite member_live. Qed.

Lemma not_found_returns (req : request) (st : state) :
  not_found req st =
  (inr (res_json 404 (obj [
     ("error", VStr "Not Found");
     ("message", VStr ("Route " +:+ originalUrl req +:+ " not found"));
     ("timestamp", VStr (wall_clock st)) ])),
   st).
Proof. reflexivity. Qed.

Lemma error_middleware_returns (err : error) (req : request) (st : state) :
  error_middleware err req st =
  (inr (res_json 500 (obj [
     ("error", VStr "Internal Server Error");
     ("message", VStr (if String.eqb (NODE_ENV st) "development"
                       then message err
                       else "Something went wrong")) ])),
   logged st [LogError "Error:" err]).
Proof. reflexivity. Qed.

(** On a record that is [null] or [undefined] the three handlers that
    read it raise, which is the one way they can. *)
Lemma reads_config_or_raises (handler : request → M response) (req : request) (st : state) :
  handler ∈ [features; root; api_status] →
  live (config st) = false →
  ∃ err, handler req st = (inl err, st) ∧ error_name err = "TypeError".
Proof.
  intros Hin Hdead. each_of Hin; subst handler.
  - unfold features. run_handler. destruct (config st); try done; by eexists.
  - unfold root. run_handler. destruct (config st); try done; by eexists.
  - unfold api_status. run_handler. destruct (config st); try done; by eexists.
Qed.

(** The four route handlers and the 404 handler write nothing, whether
    they return or raise. *)
Lemma handler_writes_nothing (handler : request → M response) (req : request) (st : state) :
  handler ∈ [health; features; root; api_status; not_found] →
  effect (handler req) st = st.
Proof.
  intros Hin. unfold effect. each_of Hin; subst handler; try reflexivity.
  - unfold features. run_handler. by destruct (member _ _).
  - unfold root. run_handler. by destruct (member _ _).
  - unfold api_status. run_handler. by destruct (member _ _).
Qed.

(** *** The router on the stack of [index.js] *)

Lemma app_stack_layout :
  app_stack
  = ((λ route, Get route.1 route.2) <$> route_table)
    ++ [UseError error_middleware; UseAll not_found].
Proof. reflexivity. Qed.

(** A request that a route takes goes to that route's handler; what the
    handler raises goes to the error-handling middleware. *)
Lemma serve_routed (pattern : string) (handler : request → M response)
    (url : string) (st : state) :
  (pattern, handler) ∈ route_table →
  route_matches pattern (pathname url) = true →
  serve (Request url) st
  = try_catch (handler (Request url)) (λ e, error_middleware e (Request url)) st.
Proof.
  intros Hin Hhit. unfold serve, app_stack. cbn [dispatch originalUrl].
  unfold route_table in Hin. each_of Hin; simplify_eq.
  - rewrite Hhit. reflexivity.
  - rewrite (routes_exclusive "/features" "/health") by (done || listed).
    rewrite Hhit. unfold try_catch. by repeat case_match.
  - rewrite (routes_exclusive "/" "/health") by (done || listed).
    rewrite (routes_exclusive "/" "/features") by (done || listed).
    rewrite Hhit. unfold try_catch. by repeat case_match.
  - rewrite (routes_exclusive "/api/status" "/health") by (done || listed).
    rewrite (routes_exclusive "/api/status" "/features") by (done || listed).
    rewrite (routes_exclusive "/api/status" "/") by (done || listed).
    rewrite Hhit. unfold try_catch. by repeat case_match.
Qed.

Lemma serve_unrouted (url : string) (st : state) :
  unrouted url = true →
  serve (Request url) st = not_found (Request url) st.
Proof.
  intros Hmiss. unfold serve, app_stack. cbn [dispatch originalUrl].
  rewrite !(unrouted_misses url) by (done || listed).
  reflexivity.
Qed.

(** Every target is either taken by a route or [unrouted]. *)
Lemma routed_or_unrouted (url : string) :
  (∃ pattern handler, (pattern, handler) ∈ route_table
     ∧ route_matches pattern (pathname url) = true)
  ∨ unrouted url = true.
Proof.
  unfold unrouted, routes. cbn [forallb].
  destruct (route_matches "/" _) eqn:Hroot;
    [left; exists "/", root; split; [listed | done] |].
  destruct (route_matches "/health" _) eqn:Hhealth;
    [left; exists "/health", health; split; [listed | done] |].
  destruct (route_matches "/features" _) eqn:Hfeatures;
    [left; exists "/features", features; split; [listed | done] |].
  destruct (route_matches "/api/status" _) eqn:Hstatus;
    [left; exists "/api/status", api_status; split; [listed | done] |].
  by right.
Qed.

(** *** What a request leaves behind *)

Lemma logged_nil (st : state) : logged st [] = st.
Proof. destruct st. unfold logged. simpl. by rewrite app_nil_r. Qed.

Lemma same_module_logged (st : state) (written : list log_entry) :
  same_module st (logged st written).
Proof. by repeat split. Qed.

Lemma same_module_trans (a b c : state) :
  same_module a b → same_module b c → same_module a c.
Proof. unfold same_module. intros ? ?. destruct_and!. repeat split; congruence. Qed.

(** The router always answers, and a request changes the console at
    most: by one entry, when a handler raised. *)
Lemma serve_total (req : request) (st : state) :
  ∃ r written, serve req st = (inr r, logged st written).
Proof.
  destruct req as [url].
  destruct (routed_or_unrouted url) as [(pattern & handler & Hin & Hhit) | Hmiss].
  - rewrite (serve_routed pattern handler) by done. unfold try_catch.
    assert (handler ∈ [health; features; root; api_status; not_found]) as Hpure.
    { unfold route_table in Hin. each_of Hin; simplify_eq; listed. }
    pose proof (handler_writes_nothing handler (Request url) st Hpure) as Heff.
    unfold effect in Heff.
    destruct (handler (Request url) st) as [[err | r] st']; cbn in Heff; subst st'.
    + rewrite error_middleware_returns. by eexists _, _.
    + exists r, []. by rewrite logged_nil.
  - rewrite serve_unrouted, not_found_returns by done.
    eexists _, []. by rewrite logged_nil.
Qed.

(** *** Runs *)

Lemma step_incoming (req : request) (st : state) :
  ∃ r written,
    step (Incoming req) st = ([(req, Some r)], logged st written)
    ∧ serve req st = (inr r, logged st written).
Proof.
  destruct (serve_total req st) as (r & written & Hserve).
  exists r, written. cbn [step]. by rewrite Hserve.
Qed.

Lemma step_keeps (ev : event) (st : state) :
  same_module st (step ev st).2
  ∧ (hr_elapsed st ≤ hr_elapsed (step ev st).2)%N.
Proof.
  destruct ev as [ns wall | req].
  - cbn [step snd elapse hr_elapsed]. split; [by repeat split | lia].
  - destruct (step_incoming req st) as (r & written & -> & _).
    cbn [snd logged hr_elapsed]. split; [apply same_module_logged | lia].
Qed.

Lemma run_cons (ev : event) (evs : list event) (st : state) :
  run (ev :: evs) st
  = ((step ev st).1 ++ (run evs (step ev st).2).1, (run evs (step ev st).2).2).
Proof.
  cbn [run]. destruct (step ev st) as [xs st']. cbn [fst snd].
  destruct (run evs st'). reflexivity.
Qed.

(** A run leaves what [main] bound as it was, and the monotonic clock no
    earlier than it was. *)
Lemma run_keeps (evs : list event) (st : state) :
  same_module st (state_after evs st)
  ∧ (hr_elapsed st ≤ hr_elapsed (state_after evs st))%N.
Proof.
  unfold state_after. revert st.
  induction evs as [| ev evs IH]; intros st.
  - split; [by repeat split | done].
  - rewrite run_cons. cbn [snd].
    destruct (step_keeps ev st) as [Hmod Hclock].
    destruct (IH (step ev st).2) as [Hmod' Hclock'].
    split; [by eapply same_module_trans | lia].
Qed.

(** *** A process that started *)

Section Serving.

Context (h : host) (st : state) (Hmain : main h = inr st).
Context (evs : list event).

Local Abbreviation now := (state_after evs st).

Lemma served_config : config now = config st.
Proof. by destruct (run_keeps evs st) as [(_ & _ & _ & _ & <- & _) _]. Qed.

Lemma served_live : live (config now) = true.
Proof. rewrite served_config. by apply main_inr in Hmain as (Hlive & _). Qed.

Lemma answer_health (url : string) :
  route_matches "/health" (pathname url) = true →
  answer (Request url) now
  = Some (res_json 200 (obj [
      ("status", VStr "healthy");
      ("timestamp", VStr (wall_clock now));
      ("environment", VStr (NODE_ENV st));
      ("version", VStr (getenv_or (env st) "npm_package_version" "1.0.0"));
      ("uptime", VNum (seconds (hr_elapsed now)));
      ("config", obj [("logLevel", VStr (LOG_LEVEL st)); ("port", PORT st)]) ])).
Proof.
  intros Hhit. unfold answer.
  rewrite (serve_routed "/health" health) by (done || listed).
  unfold try_catch. rewrite health_returns.
  by destruct (run_keeps evs st) as [(<- & <- & <- & <- & _) _].
Qed.

Lemma answer_features (url : string) :
  route_matches "/features" (pathname url) = true →
  answer (Request url) now
  = Some (res_json 200 (obj [
      ("environment", VStr (NODE_ENV st));
      ("features", js_or (opt_member (config st) "features") (obj []));
      ("message", VStr "Feature flags configuration") ])).
Proof.
  intros Hhit. unfold answer.
  rewrite (serve_routed "/features" features) by (done || listed).
  unfold try_catch. rewrite features_returns by apply served_live.
  rewrite served_config.
  by destruct (run_keeps evs st) as [(_ & _ & <- & _) _].
Qed.

Lemma answer_root (url : string) :
  route_matches "/" (pathname url) = true →
  answer (Request url) now
  = Some (res_json 200 (obj [
      ("message", VStr "Welcome to Trunk-Based Development CI/CD Pipeline!");
      ("environment", VStr (NODE_ENV st));
      ("timestamp", VStr (wall_clock now));
      ("logLevel", VStr (LOG_LEVEL st));
      ("features", obj [
         ("newUI", js_or (stored_flag (config st) "newUI") (VBool false));
         ("advancedAnalytics",
          js_or (stored_flag (config st) "advancedAnalytics") (VBool false));
         ("betaFeatures",
          js_or (stored_flag (config st) "betaFeatures") (VBool false)) ]) ])).
Proof.
  intros Hhit. unfold answer.
  rewrite (serve_routed "/" root) by (done || listed).
  unfold try_catch. rewrite root_returns by apply served_live.
  rewrite served_config.
  by destruct (run_keeps evs st) as [(_ & _ & <- & <- & _) _].
Qed.

Lemma answer_api_status (url : string) :
  route_matches "/api/status" (pathname url) = true →
  answer (Request url) now
  = Some (res_json 200 (obj [
      ("status", VStr "operational");
      ("environment", VStr (NODE_ENV st));
      ("config", js_or (opt_member (config st) "app") (obj []));
      ("timestamp", VStr (wall_clock now)) ])).
Proof.
  intros Hhit. unfold answer.
  rewrite (serve_routed "/api/status" api_status) by (done || listed).
  unfold try_catch. rewrite api_status_returns by apply served_live.
  rewrite served_config.
  by destruct (run_keeps evs st) as [(_ & _ & <- & _) _].
Qed.

End Serving.

(** *** The clock *)

Lemma seconds_mono (a b : N) : (a ≤ b)%N → (seconds a <= seconds b)%Q.
Proof. unfold seconds, Qle. simpl. lia. Qed.

Lemma seconds_nonneg (a : N) : (0 <= seconds a)%Q.
Proof. unfold seconds, Qle. simpl. lia. Qed.

Lemma health_uptimes_app (xs ys : list exchange) :
  health_uptimes (xs ++ ys) = health_uptimes xs ++ health_uptimes ys.
Proof. apply omap_app. Qed.

(** The [/health] answers of a run report the readings of the monotonic
    clock at the moments the requests were served. *)
Lemma run_uptimes (evs : list event) (st : state) :
  ∃ readings : list N,
    health_uptimes (run evs st).1 = (λ ns, VNum (seconds ns)) <$> readings
    ∧ length readings = length (filter (λ x, is_health x = true) (run evs st).1)
    ∧ Forall (λ ns, (hr_elapsed st ≤ ns)%N) readings
    ∧ StronglySorted N.le readings.
Proof.
  revert st. induction evs as [| ev evs IH]; intros st.
  { exists []. repeat split; constructor. }
  rewrite run_cons. cbn [fst]. rewrite health_uptimes_app, filter_app, length_app.
  destruct (IH (step ev st).2) as (readings & Hups & Hlen & Hlow & Hsorted).
  rewrite Hups, <- Hlen.
  destruct ev as [ns wall | req].
  - exists readings. cbn in *. split; [done |]. split; [done |]. split; [| done].
    eapply Forall_impl; [exact Hlow |]. cbn. intros; lia.
  - destruct (step_incoming req st) as (r & written & Hstep & Hserve).
    rewrite Hstep in *. cbn [fst snd logged hr_elapsed] in *.
    unfold health_uptimes at 1. cbn [omap list_omap].
    destruct (is_health (req, Some r)) eqn:Hhit.
    + exists (hr_elapsed st :: readings).
      rewrite filter_cons_True, filter_nil by done.
      destruct req as [url]. unfold is_health in Hhit. cbn in Hhit.
      rewrite (serve_routed "/health" health) in Hserve by (done || listed).
      unfold try_catch in Hserve. rewrite health_returns in Hserve.
      injection Hserve as <- _. cbn [from_option snd].
      split; [reflexivity |]. split; [reflexivity |].
      split; [constructor; [lia | done] | by constructor].
    + exists readings.
      rewrite filter_cons_False, filter_nil by (by rewrite Hhit). done.
Qed.

(** *** Defaults of the environment variables *)

Lemma getenv_or_unset (e : gmap string string) (name fallback : string) :
  e !! name = None → getenv_or e name fallback = fallback.
Proof. intros Hunset. unfold getenv_or, getenv. by rewrite Hunset. Qed.

Lemma resolve_PORT_unset (e : gmap string string) :
  e !! "PORT" = None → resolve_PORT e = VNum 3000.
Proof. intros Hunset. unfold resolve_PORT, getenv. by rewrite Hunset. Qed.

(** *** The flags in the answers *)

Lemma three_flags_lookup (value_of : string → value) (flag : string) :
  flag ∈ flag_names → three_flags value_of !! flag = Some (value_of flag).
Proof. unfold flag_names. intros Hin. each_of Hin; by subst flag. Qed.

Lemma three_flags_dom (value_of : string → value) :
  dom (three_flags value_of) = list_to_set flag_names.
Proof. reflexivity. Qed.

Lemma three_flags_names (value_of : string → value) (flag : string) (v : value) :
  three_flags value_of !! flag = Some v → flag ∈ flag_names.
Proof.
  intros Hlook. apply (elem_of_list_to_set (C := gset string)).
  rewrite <- (three_flags_dom value_of). apply elem_of_dom. by exists v.
Qed.

Lemma flags_of_root (cfg msg environment timestamp logLevel : value) :
  flags_of (res_json 200 (obj [
    ("message", msg);
    ("environment", environment);
    ("timestamp", timestamp);
    ("logLevel", logLevel);
    ("features", obj [
       ("newUI", js_or (stored_flag cfg "newUI") (VBool false));
       ("advancedAnalytics",
        js_or (stored_flag cfg "advancedAnalytics") (VBool false));
       ("betaFeatures",
        js_or (stored_flag cfg "betaFeatures") (VBool false)) ]) ]))
  = three_flags (λ flag, js_or (stored_flag cfg flag) (VBool false)).
Proof. reflexivity. Qed.

Lemma reported_flag_flags_of (r : response) (flag : string) (m : gmap string value) :
  field r "features" = VObj m →
  reported_flag r flag = default VUndefined (flags_of r !! flag).
Proof. unfold reported_flag, flags_of. by intros ->. Qed.

(** *** The repository's tests, on the model *)

(** [tests/integration/health.test.js] and the unit tests run the
    application under a [NODE_ENV] for which no record need exist; these
    are their assertions on the answers of [bare_host]. *)

Example test_health_status (st : state) :
  main bare_host = inr st →
  ∃ r, answer (Request "/health") st = Some r
    ∧ status r = 200
    ∧ field r "status" = VStr "healthy"
    ∧ field r "environment" = VStr "development"
    ∧ field r "version" = VStr "1.0.0".
Proof.
  intros [= <-]. eexists. split; [vm_compute; reflexivity |].
  repeat split; vm_compute; reflexivity.
Qed.

Example test_root_has_three_flags (st : state) :
  main bare_host = inr st →
  ∃ r, answer (Request "/") st = Some r
    ∧ status r = 200
    ∧ dom (flags_of r) = {[ "newUI"; "advancedAnalytics"; "betaFeatures" ]}
    ∧ map_Forall (λ _ v, is_boolean v) (flags_of r).
Proof.
  intros [= <-]. eexists. split; [vm_compute; reflexivity |].
  split; [vm_compute; reflexivity |]. split; [vm_compute; reflexivity |].
  apply map_Forall_to_list. vm_compute.
  repeat (constructor; [by eexists |]). constructor.
Qed.

Example test_not_found (st : state) :
  main bare_host = inr st →
  ∃ r, answer (Request "/non-existent-route") st = Some r
    ∧ status r = 404
    ∧ field r "error" = VStr "Not Found"
    ∧ field r "message" = VStr "Route /non-existent-route not found".
Proof.
  intros [= <-]. eexists. split; [vm_compute; reflexivity |].
  repeat split; vm_compute; reflexivity.
Qed.

Example test_route_matching :
  route_matches "/health" "/health" = true
  ∧ route_matches "/health" "/HEALTH/" = true
  ∧ route_matches "/health" "/health/check" = false
  ∧ route_matches "/" "/" = true
  ∧ route_matches "/" "/index" = false
  ∧ pathname "/api/status?verbose=1" = "/api/status"
  ∧ unrouted "/api/status?verbose=1" = false
  ∧ unrouted "/api" = true.
Proof. repeat split; vm_compute; reflexivity. Qed.

(** ** The claims of the specification *)

(** C1. When [require] raises for the environment's configuration file
    (no such file, or content that does not parse), start-up succeeds
    all the same: one warning is written, the record is the whole
    built-in default (an empty [features] map, logging level [info]),
    and from then on every GET routed to [/health] is answered 200 with
    [status] equal to ["healthy"]. *)
Theorem missing_config_still_healthy (h : host) (e : error) :
  require_json h (config_path (resolve_NODE_ENV (process_env h))) = inl e →
  ∃ st, main h = inr st
    ∧ console st = [no_config_warning (resolve_NODE_ENV (process_env h))]
    ∧ config st = default_config (resolve_PORT (process_env h))
    ∧ opt_member (config st) "features" = VObj ∅
    ∧ opt_member (opt_member (config st) "logging") "level" = VStr "info"
    ∧ ∀ evs url, route_matches "/health" (pathname url) = true →
        ∃ r, answer (Request url) (state_after evs st) = Some r
             ∧ status r = 200
             ∧ field r "status" = VStr "healthy".
Proof.
  intros Hreq. destruct (main_default h e Hreq) as (st & Hmain & Hcfg & Hlog).
  destruct (main_inr h st Hmain) as (_ & _ & HPORT & HENV & _).
  exists st. split; [exact Hmain |].
  rewrite Hlog, Hcfg, HPORT, HENV.
  do 4 (split; [reflexivity |]).
  intros evs url Hhit. rewrite answer_health by done.
  eexists. repeat split; reflexivity.
Qed.

Lemma missing_config_still_healthy_witness :
  ∃ st, main ghost_host = inr st
    ∧ console st = [Warn "No config found for environment: ghost, using defaults"]
    ∧ ∃ r, answer (Request "/health")
             (state_after [Elapse 5000 "2024-05-01T10:00:01.000Z"] st) = Some r
           ∧ status r = 200
           ∧ field r "status" = VStr "healthy".
Proof.
  destruct (missing_config_still_healthy ghost_host
              (module_not_found "../config/environments/ghost.json"))
    as (st & Hmain & Hlog & _ & _ & _ & Hhealth); [reflexivity |].
  exists st. split; [exact Hmain |]. split; [exact Hlog |].
  apply Hhealth. reflexivity.
Defined.

(** C2, as the specification words it, fails: with [NODE_ENV=ghost] and
    no record for it, [/api/status] is answered 200 and ["operational"],
    but its [config] field is the [app] part of the default record,
    which is not the empty object. *)
Lemma ghost_status_config_is_not_empty :
  resolve_NODE_ENV (process_env ghost_host) = "ghost"
  ∧ require_json ghost_host (config_path "ghost")
    = inl (module_not_found "../config/environments/ghost.json")
  ∧ ¬ (∀ st, main ghost_host = inr st →
         ∃ r, answer (Request "/api/status") st = Some r
              ∧ status r = 200
              ∧ field r "status" = VStr "operational"
              ∧ field r "config" = VObj ∅).
Proof.
  split; [reflexivity |]. split; [reflexivity |].
  intros Hclaim.
  destruct (main ghost_host) as [err | st] eqn:Hmain; [discriminate Hmain |].
  destruct (Hclaim st eq_refl) as (r & Hanswer & _ & _ & Hconfig).
  injection Hmain as <-.
  vm_compute in Hanswer. injection Hanswer as <-.
  apply (f_equal (λ v, opt_member v "name")) in Hconfig.
  vm_compute in Hconfig. discriminate Hconfig.
Qed.

(** C2, amended. With [NODE_ENV=ghost] and no record for it,
    [/api/status] is answered 200 with [status] equal to
    ["operational"] and [config] equal to the [app] part of the default
    record: the name ["ci-test"] and the resolved port. *)
Theorem ghost_status_reports_default_app (h : host) (e : error) :
  resolve_NODE_ENV (process_env h) = "ghost" →
  require_json h (config_path "ghost") = inl e →
  ∃ st, main h = inr st
    ∧ ∀ evs, ∃ r, answer (Request "/api/status") (state_after evs st) = Some r
        ∧ status r = 200
        ∧ field r "status" = VStr "operational"
        ∧ field r "config"
          = obj [("name", VStr "ci-test"); ("port", resolve_PORT (process_env h))].
Proof.
  intros Hghost Hreq. rewrite <- Hghost in Hreq.
  destruct (main_default h e Hreq) as (st & Hmain & Hcfg & _).
  destruct (main_inr h st Hmain) as (_ & _ & HPORT & _).
  exists st. split; [exact Hmain |]. intros evs.
  rewrite (answer_api_status h st Hmain) by done.
  eexists. split; [reflexivity |]. split; [reflexivity |]. split; [reflexivity |].
  rewrite Hcfg, HPORT. reflexivity.
Qed.

Lemma ghost_status_reports_default_app_witness :
  ∃ st, main ghost_host = inr st
    ∧ ∃ r, answer (Request "/api/status") (state_after [] st) = Some r
        ∧ status r = 200
        ∧ field r "status" = VStr "operational"
        ∧ field r "config" = obj [("name", VStr "ci-test"); ("port", VNum 3000)].
Proof.
  destruct (ghost_status_reports_default_app ghost_host
              (module_not_found "../config/environments/ghost.json"))
    as (st & Hmain & Hstatus); [reflexivity | reflexivity |].
  exists st. split; [exact Hmain |]. apply (Hstatus []).
Defined.

(** C3, as the specification words it, fails on the default record: its
    [features] map is empty, so [/features] reports the empty map while
    [/] reports the three flags, each [false]. *)
Lemma default_features_is_not_a_superset :
  ¬ (∀ st, main ghost_host = inr st →
       ∃ r1 r2, answer (Request "/") st = Some r1
         ∧ answer (Request "/features") st = Some r2
         ∧ flags_of r1 ⊆ flags_of r2
         ∧ map_Forall (λ _ v, is_boolean v) (flags_of r1)
         ∧ map_Forall (λ _ v, is_boolean v) (flags_of r2)).
Proof.
  intros Hclaim.
  destruct (main ghost_host) as [err | st] eqn:Hmain; [discriminate Hmain |].
  destruct (Hclaim st eq_refl) as (r1 & r2 & Hroot & Hfeatures & Hsub & _).
  injection Hmain as <-.
  vm_compute in Hroot. injection Hroot as <-.
  vm_compute in Hfeatures. injection Hfeatures as <-.
  assert (flags_of (res_json 200 (obj [("features", obj [])])) !! "newUI"
          = Some (VBool false)) as Hlook; [| discriminate Hlook].
  eapply lookup_weaken; [| exact Hsub]. reflexivity.
Qed.

(** C3, amended. When the record's flag map holds booleans only (the
    map being the record's [features] object, or empty when the record
    has none), [/features] reports that map as it is, and [/] reports
    exactly the three flags, each with the value the map gives it, or
    [false] when the map does not have it. So the part of the
    [/features] map that concerns the three flags is contained in what
    [/] reports (not the other way round), and every flag value in
    either answer is a boolean. *)
Theorem flags_agree_when_boolean (h : host) (st : state) (m : gmap string value) :
  main h = inr st →
  flag_map (config st) = Some m →
  map_Forall (λ _ v, is_boolean v) m →
  ∀ evs, ∃ r1 r2,
    answer (Request "/") (state_after evs st) = Some r1
    ∧ answer (Request "/features") (state_after evs st) = Some r2
    ∧ field r2 "features" = VObj m
    ∧ dom (flags_of r1) = list_to_set flag_names
    ∧ (∀ flag, flag ∈ flag_names →
         flags_of r1 !! flag = Some (default (VBool false) (m !! flag)))
    ∧ (∀ flag v, flag ∈ flag_names →
         flags_of r2 !! flag = Some v → flags_of r1 !! flag = Some v)
    ∧ map_Forall (λ _ v, is_boolean v) (flags_of r1)
    ∧ map_Forall (λ _ v, is_boolean v) (flags_of r2).
Proof.
  intros Hmain Hmap Hbool evs.
  apply flag_map_Some in Hmap as [Hraw Hstored].
  rewrite (answer_root h st Hmain), (answer_features h st Hmain) by done.
  do 2 eexists. split; [reflexivity |]. split; [reflexivity |].
  rewrite flags_of_root, Hraw. split; [reflexivity |].
  split; [apply three_flags_dom |].
  assert (∀ flag, flag ∈ flag_names →
            three_flags (λ flag, js_or (stored_flag (config st) flag) (VBool false))
            !! flag = Some (default (VBool false) (m !! flag))) as Hflags.
  { intros flag Hin. rewrite three_flags_lookup, Hstored by done.
    by rewrite boolean_flag_or_false. }
  split; [exact Hflags |]. split; [| split].
  - intros flag v Hin Hlook. rewrite (Hflags flag Hin).
    change (m !! flag = Some v) in Hlook. by rewrite Hlook.
  - intros flag v Hlook.
    pose proof (three_flags_names _ _ _ Hlook) as Hin.
    rewrite (Hflags flag Hin) in Hlook. injection Hlook as <-.
    destruct (m !! flag) as [w |] eqn:Hm; [by apply Hbool in Hm | by exists false].
  - exact Hbool.
Qed.

Lemma flags_agree_when_boolean_witness :
  ∃ st r1 r2, main staging_host = inr st
    ∧ answer (Request "/") (state_after [Incoming (Request "/health")] st) = Some r1
    ∧ answer (Request "/features") (state_after [Incoming (Request "/health")] st)
      = Some r2
    ∧ flags_of r2 !! "darkMode" = Some (VBool true)
    ∧ flags_of r1 !! "darkMode" = None
    ∧ flags_of r1 !! "betaFeatures" = Some (VBool false)
    ∧ map_Forall (λ _ v, is_boolean v) (flags_of r1)
    ∧ map_Forall (λ _ v, is_boolean v) (flags_of r2).
Proof.
  destruct (main staging_host) as [err | st] eqn:Hmain; [discriminate Hmain |].
  destruct (flags_agree_when_boolean staging_host st
              (list_to_map [("newUI", VBool true);
                            ("advancedAnalytics", VBool true);
                            ("betaFeatures", VBool false);
                            ("darkMode", VBool true)])
              Hmain)
    with (evs := [Incoming (Request "/health")])
    as (r1 & r2 & Hroot & Hfeatures & Hmap & Hdom & Hflags & _ & Hbool1 & Hbool2).
  - injection Hmain as <-. reflexivity.
  - apply map_Forall_to_list. vm_compute.
    repeat (constructor; [by eexists |]). constructor.
  - exists st, r1, r2. split; [reflexivity |].
    split; [exact Hroot |]. split; [exact Hfeatures |].
    split; [unfold flags_of; by rewrite Hmap |].
    split; [apply not_elem_of_dom; rewrite Hdom; by vm_compute |].
    split; [rewrite Hflags by listed; reflexivity |].
    split; [exact Hbool1 | exact Hbool2].
Defined.

(** C4, as the specification words it, fails: under [NODE_ENV=staging],
    which is not production, the error-handling middleware hides the
    error's message. *)
Lemma staging_error_message_is_hidden :
  ¬ (∀ st err req, main staging_host = inr st →
       NODE_ENV st ≠ "production" →
       ∃ r, (error_middleware err req st).1 = inr r
            ∧ status r = 500
            ∧ field r "message" = VStr (message err)).
Proof.
  intros Hclaim.
  destruct (main staging_host) as [err | st] eqn:Hmain; [discriminate Hmain |].
  destruct (Hclaim st (Error "TypeError" "boom") (Request "/") eq_refl)
    as (r & Hrun & _ & Hmessage).
  - injection Hmain as <-. discriminate.
  - rewrite error_middleware_returns in Hrun. injection Hrun as <-.
    injection Hmain as <-. vm_compute in Hmessage. discriminate Hmessage.
Qed.

(** C4, amended. What the handler of a route raises is handed to the
    error-handling middleware, and whatever error reaches it, the answer
    is 500 with [error] equal to ["Internal Server Error"]; its
    [message] is the error's own message exactly when the environment
    identifier is ["development"], and the generic
    ["Something went wrong"] under every other identifier, production
    included. The error is written to the console and nothing else
    changes. *)
Theorem error_middleware_hides_outside_development
    (err : error) (req : request) (st : state) :
  (∀ pattern handler before,
     (pattern, handler) ∈ route_table →
     route_matches pattern (pathname (originalUrl req)) = true →
     handler req before = (inl err, st) →
     serve req before = error_middleware err req st)
  ∧ ∃ r, error_middleware err req st = (inr r, logged st [LogError "Error:" err])
      ∧ status r = 500
      ∧ field r "error" = VStr "Internal Server Error"
      ∧ (NODE_ENV st = "development" → field r "message" = VStr (message err))
      ∧ (NODE_ENV st ≠ "development" →
           field r "message" = VStr "Something went wrong")
      ∧ (NODE_ENV st = "production" →
           field r "message" = VStr "Something went wrong").
Proof.
  split.
  { intros pattern handler before Hin Hhit Hraise. destruct req as [url].
    rewrite (serve_routed pattern handler) by done.
    unfold try_catch. by rewrite Hraise. }
  rewrite error_middleware_returns. eexists. split; [reflexivity |].
  split; [reflexivity |]. split; [reflexivity |].
  change (field _ "message") with
    (VStr (if String.eqb (NODE_ENV st) "development"
           then message err else "Something went wrong")).
  destruct (String.eqb_spec (NODE_ENV st) "development") as [Heq | Hne].
  - split; [done |]. split; [done |]. intros Hprod. by rewrite Hprod in Heq.
  - split; [done |]. split; done.
Qed.

Lemma error_middleware_hides_outside_development_witness :
  (∃ r written,
     serve (Request "/") null_config_state = (inr r, logged null_config_state written)
     ∧ status r = 500
     ∧ field r "message"
       = VStr "Cannot read properties of null (reading 'features')")
  ∧ (∃ st r, main staging_host = inr st
       ∧ (error_middleware (Error "TypeError" "boom") (Request "/") st).1 = inr r
       ∧ status r = 500
       ∧ field r "message" = VStr "Something went wrong").
Proof.
  split.
  - destruct (error_middleware_hides_outside_development
                (Error "TypeError" "Cannot read properties of null (reading 'features')")
                (Request "/") null_config_state)
      as (Hcaught & r & Hrun & Hstatus & _ & Hown & _).
    exists r, [LogError "Error:"
                 (Error "TypeError" "Cannot read properties of null (reading 'features')")].
    split; [| split; [exact Hstatus | by apply Hown]].
    rewrite (Hcaught "/" root null_config_state); [exact Hrun | listed | done | done].
  - destruct (main staging_host) as [err | st] eqn:Hmain; [discriminate Hmain |].
    destruct (error_middleware_hides_outside_development
                (Error "TypeError" "boom") (Request "/") st)
      as (_ & r & Hrun & Hstatus & _ & _ & Hgeneric & _).
    exists st, r. split; [reflexivity |]. split; [by rewrite Hrun |].
    split; [exact Hstatus |]. apply Hgeneric.
    injection Hmain as <-. discriminate.
Defined.



(** C6. Once [main] has returned, and for as long as the process then
    serves requests, the configuration record is one of two whole
    values: what [require] returned for the environment's file, as it
    is, or, when [require] raised, the built-in default record. The
    warning is written in the second case only. *)
Theorem config_is_parsed_or_default (h : host) (st : state) :
  main h = inr st →
  ∀ evs,
    (∃ parsed, require_json h (config_path (NODE_ENV st)) = inr parsed
       ∧ config (state_after evs st) = parsed
       ∧ console st = [])
    ∨ (∃ e, require_json h (config_path (NODE_ENV st)) = inl e
         ∧ config (state_after evs st) = default_config (PORT st)
         ∧ console st = [no_config_warning (NODE_ENV st)]).
Proof.
  intros Hmain evs. rewrite served_config.
  destruct (main_inr h st Hmain) as (_ & _ & -> & -> & _ & _ & Hload).
  unfold load_config in Hload.
  destruct (require_json h _) as [e | parsed]; injection Hload as -> ->.
  - right. by exists e.
  - left. by exists parsed.
Qed.

Lemma config_is_parsed_or_default_witness :
  ∃ st, main staging_host = inr st
    ∧ config (state_after [Incoming (Request "/"); Incoming (Request "/nope")] st)
      = staging_record.
Proof.
  destruct (main staging_host) as [err | st] eqn:Hmain; [discriminate Hmain |].
  exists st. split; [reflexivity |].
  destruct (config_is_parsed_or_default staging_host st Hmain
              [Incoming (Request "/"); Incoming (Request "/nope")])
    as [(parsed & Hreq & Hcfg & _) | (e & Hreq & _)].
  - rewrite Hcfg. injection Hmain as <-. by injection Hreq as <-.
  - injection Hmain as <-. discriminate Hreq.
Defined.

(** C7. In every run of the process, from whatever state, the [uptime]
    fields of the successive [/health] answers are numbers, one per
    call, each at least 0 and none smaller than an earlier one: every
    call reads the monotonic clock afresh and reports the reading as it
    is, and nothing the handlers do sets the clock. *)
Theorem health_uptime_never_decreases (evs : list event) (st : state) :
  ∃ uptimes : list Q,
    health_uptimes (run evs st).1 = VNum <$> uptimes
    ∧ length uptimes = length (filter (λ x, is_health x = true) (run evs st).1)
    ∧ Forall (λ q, (0 <= q)%Q) uptimes
    ∧ StronglySorted Qle uptimes.
Proof.
  destruct (run_uptimes evs st) as (readings & Hups & Hlen & _ & Hsorted).
  exists (seconds <$> readings).
  split; [by rewrite Hups, <- list_fmap_compose |].
  split; [by rewrite length_fmap |].
  split.
  - apply Forall_fmap, Forall_true. intros ns. apply seconds_nonneg.
  - clear Hups Hlen. induction Hsorted as [| ns rest _ IH Hall]; cbn; constructor.
    + exact IH.
    + apply Forall_fmap. eapply Forall_impl; [exact Hall |].
      intros m Hle. by apply seconds_mono.
Qed.

Lemma health_uptime_never_decreases_witness :
  ∃ st uptimes, main bare_host = inr st
    ∧ health_uptimes
        (run [ Incoming (Request "/health");
               Elapse 2500000000 "2024-05-01T10:00:02.500Z";
               Incoming (Request "/features");
               Incoming (Request "/health?probe=1");
               Incoming (Request "/HEALTH/") ] st).1
      = VNum <$> uptimes
    ∧ length uptimes = 3
    ∧ StronglySorted Qle uptimes.
Proof.
  destruct (main bare_host) as [err | st] eqn:Hmain; [discriminate Hmain |].
  destruct (health_uptime_never_decreases
              [ Incoming (Request "/health");
                Elapse 2500000000 "2024-05-01T10:00:02.500Z";
                Incoming (Request "/features");
                Incoming (Request "/health?probe=1");
                Incoming (Request "/HEALTH/") ] st)
    as (uptimes & Hups & Hlen & _ & Hsorted).
  exists st, uptimes. split; [reflexivity |]. split; [exact Hups |].
  split; [| exact Hsorted].
  rewrite Hlen. injection Hmain as <-. vm_compute. reflexivity.
Defined.

(** The readings of one run, computed. *)
Example health_uptimes_of_a_run (st : state) :
  main bare_host = inr st →
  health_uptimes
    (run [ Incoming (Request "/health");
           Elapse 2500000000 "2024-05-01T10:00:02.500Z";
           Incoming (Request "/features");
           Incoming (Request "/health?probe=1") ] st).1
  = [VNum (120000000 # 1000000000); VNum (2620000000 # 1000000000)].
Proof. intros [= <-]. vm_compute. reflexivity. Qed.

(** C8. A variable that is not set takes its default: [PORT] is the
    number 3000, and that is the port the server listens on, [NODE_ENV]
    is ["development"], [LOG_LEVEL] is ["info"]. Whatever the variables
    resolve to, the [config] object of every [/health] answer holds
    exactly the resolved log level and port. *)
Theorem defaults_when_unset (h : host) (st : state) :
  main h = inr st →
  (process_env h !! "PORT" = None →
     PORT st = VNum 3000 ∧ listening st = VNum 3000)
  ∧ (process_env h !! "NODE_ENV" = None → NODE_ENV st = "development")
  ∧ (process_env h !! "LOG_LEVEL" = None → LOG_LEVEL st = "info")
  ∧ listening st = PORT st
  ∧ ∀ evs url, route_matches "/health" (pathname url) = true →
      ∃ r, answer (Request url) (state_after evs st) = Some r
        ∧ field r "config"
          = obj [("logLevel", VStr (LOG_LEVEL st)); ("port", PORT st)]
        ∧ opt_member (field r "config") "logLevel" = VStr (LOG_LEVEL st)
        ∧ opt_member (field r "config") "port" = PORT st.
Proof.
  intros Hmain.
  destruct (main_inr h st Hmain) as (_ & _ & HPORT & HENV & HLOG & Hlisten & _).
  split; [intros Hunset; by rewrite HPORT, Hlisten, resolve_PORT_unset |].
  split; [intros Hunset; rewrite HENV; by apply getenv_or_unset |].
  split; [intros Hunset; rewrite HLOG; by apply getenv_or_unset |].
  split; [by rewrite HPORT, Hlisten |].
  intros evs url Hhit. rewrite answer_health by done.
  eexists. repeat split; reflexivity.
Qed.

Lemma defaults_when_unset_witness :
  ∃ st r, main bare_host = inr st
    ∧ PORT st = VNum 3000
    ∧ NODE_ENV st = "development"
    ∧ LOG_LEVEL st = "info"
    ∧ answer (Request "/health") (state_after [] st) = Some r
    ∧ field r "config" = obj [("logLevel", VStr "info"); ("port", VNum 3000)].
Proof.
  destruct (main bare_host) as [err | st] eqn:Hmain; [discriminate Hmain |].
  destruct (defaults_when_unset bare_host st Hmain)
    as (Hport & Henv & Hlog & _ & Hhealth).
  destruct (Hhealth [] "/health") as (r & Hanswer & Hconfig & _); [reflexivity |].
  exists st, r. split; [reflexivity |].
  destruct Hport as [Hport _]; [reflexivity |].
  split; [exact Hport |].
  split; [apply Henv; reflexivity |].
  split; [apply Hlog; reflexivity |].
  split; [exact Hanswer |].
  rewrite Hconfig, Hport, Hlog by reflexivity. reflexivity.
Defined.

(** C9. The record is bound by [main], before anything is served, and
    no handler writes to it: each of the four route handlers, the 404
    handler and the error-handling middleware leaves the record, the
    environment name and the log level as they were, and so does every
    request through the router and every run of the process, after
    which the record is still the one [load_config] returned. *)
Theorem handlers_leave_bindings_alone :
  (∀ handler req st,
     handler ∈ [root; health; features; api_status; not_found] →
     same_bindings st (effect (handler req) st))
  ∧ (∀ err req st, same_bindings st (effect (error_middleware err req) st))
  ∧ (∀ req st, same_bindings st (effect (serve req) st))
  ∧ (∀ evs st, same_bindings st (state_after evs st))
  ∧ (∀ h st evs, main h = inr st →
       config (state_after evs st)
       = (load_config h (resolve_NODE_ENV (process_env h))
            (resolve_PORT (process_env h))).1).
Proof.
  split; [| split; [| split; [| split]]].
  - intros handler req st Hin. rewrite handler_writes_nothing; [done |].
    each_of Hin; subst handler; listed.
  - intros err req st. unfold effect. by rewrite error_middleware_returns.
  - intros req st. unfold effect.
    by destruct (serve_total req st) as (r & written & ->).
  - intros evs st.
    by destruct (run_keeps evs st) as [(_ & _ & Henv & Hlog & Hcfg & _) _].
  - intros h st evs Hmain. rewrite served_config.
    by destruct (main_inr h st Hmain) as (_ & _ & _ & _ & _ & _ & <-).
Qed.

Lemma handlers_leave_bindings_alone_witness :
  ∃ st, main staging_host = inr st
    ∧ config (state_after [ Incoming (Request "/");
                            Incoming (Request "/features");
                            Elapse 1000 "2024-05-01T10:00:01.000Z";
                            Incoming (Request "/api/status");
                            Incoming (Request "/missing") ] st)
      = staging_record.
Proof.
  destruct (main staging_host) as [err | st] eqn:Hmain; [discriminate Hmain |].
  exists st. split; [reflexivity |].
  destruct handlers_leave_bindings_alone as (_ & _ & _ & _ & Hloaded).
  rewrite (Hloaded staging_host st _ Hmain). reflexivity.
Defined.

(** C10. For each of the three flags, [GET /] reports the stored value
    itself when it is truthy and [false] otherwise. So a flag stored as
    [false], [0], [null] or the empty string, and a flag that is not
    stored, are all reported as [false]; and a truthy value that is not
    a boolean is reported as it is, not as a boolean. *)
Theorem root_flag_is_stored_or_false (h : host) (st : state) :
  main h = inr st →
  ∀ evs, ∃ r,
    answer (Request "/") (state_after evs st) = Some r
    ∧ ∀ flag, flag ∈ flag_names →
        let stored := stored_flag (config st) flag in
        (truthy stored = true → reported_flag r flag = stored)
        ∧ (truthy stored = false → reported_flag r flag = VBool false)
        ∧ (stored = VBool false ∨ (∃ q, stored = VNum q ∧ (q == 0)%Q)
           ∨ stored = VNull ∨ stored = VStr "" ∨ stored = VUndefined →
           reported_flag r flag = VBool false)
        ∧ (truthy stored = true → ¬ is_boolean stored →
           reported_flag r flag = stored ∧ ¬ is_boolean (reported_flag r flag)).
Proof.
  intros Hmain evs. rewrite (answer_root h st Hmain) by done.
  eexists. split; [reflexivity |]. intros flag Hin.
  erewrite reported_flag_flags_of by reflexivity.
  rewrite flags_of_root, three_flags_lookup by done. cbn [default].
  set (stored := stored_flag (config st) flag).
  split; [apply js_or_truthy |]. split; [apply js_or_falsy |]. split.
  - intros Hfalsy. apply js_or_falsy.
    destruct Hfalsy as [-> | [(q & -> & Hzero) | [-> | [-> | ->]]]];
      try reflexivity.
    by apply truthy_zero.
  - intros Htruthy Hnot. by rewrite js_or_truthy.
Qed.

Lemma root_flag_is_stored_or_false_witness :
  ∃ st r, main odd_host = inr st
    ∧ answer (Request "/") (state_after [] st) = Some r
    ∧ reported_flag r "newUI" = VStr "yes"
    ∧ reported_flag r "advancedAnalytics" = VBool false
    ∧ reported_flag r "betaFeatures" = VBool false.
Proof.
  destruct (main odd_host) as [err | st] eqn:Hmain; [discriminate Hmain |].
  destruct (root_flag_is_stored_or_false odd_host st Hmain [])
    as (r & Hanswer & Hflags).
  exists st, r. split; [reflexivity |]. split; [exact Hanswer |].
  injection Hmain as <-.
  split; [| split].
  - destruct (Hflags "newUI") as (Htruthy & _); [listed |].
    apply Htruthy. reflexivity.
  - destruct (Hflags "advancedAnalytics") as (_ & Hfalsy & _); [listed |].
    apply Hfalsy. reflexivity.
  - destruct (Hflags "betaFeatures") as (_ & Hfalsy & _); [listed |].
    apply Hfalsy. reflexivity.
Defined.

(** ** Further properties of the code *)

(** *** Requests on a process that started *)

Lemma routed_is_not_unrouted (pattern : string) (handler : request → M response)
    (url : string) :
  (pattern, handler) ∈ route_table →
  route_matches pattern (pathname url) = true →
  unrouted url = false.
Proof.
  intros Hin Hhit. destruct (unrouted url) eqn:Hmiss; [| done].
  rewrite (unrouted_misses url pattern) in Hhit; [done | done |].
  unfold route_table in Hin. each_of Hin; simplify_eq; listed.
Qed.

(** With a record that can be read no handler raises: the request is
    answered 200 by its route or 404 by the catch-all, and the state is
    left as it was. *)
Lemma live_serve (url : string) (st : state) :
  live (config st) = true →
  ∃ r, serve (Request url) st = (inr r, st)
    ∧ status r = (if unrouted url then 404 else 200).
Proof.
  intros Hlive.
  destruct (routed_or_unrouted url) as [(pattern & handler & Hin & Hhit) | Hmiss].
  - rewrite (serve_routed pattern handler) by done.
    rewrite (routed_is_not_unrouted pattern handler) by done.
    unfold try_catch, route_table in *. each_of Hin; simplify_eq.
    + rewrite health_returns. by eexists.
    + rewrite features_returns by done. by eexists.
    + rewrite root_returns by done. by eexists.
    + rewrite api_status_returns by done. by eexists.
  - rewrite serve_unrouted, not_found_returns, Hmiss by done. by eexists.
Qed.

Lemma elapse_elapse (a b : N) (w1 w2 : string) (st : state) :
  elapse b w2 (elapse a w1 st) = elapse (a + b) w2 st.
Proof. unfold elapse. cbn. by rewrite N.add_assoc. Qed.

Lemma elapse_nothing (st : state) : elapse 0 (wall_clock st) st = st.
Proof. destruct st. unfold elapse. cbn. by rewrite N.add_0_r. Qed.

Lemma state_after_cons (ev : event) (evs : list event) (st : state) :
  state_after (ev :: evs) st = state_after evs (state_after [ev] st).
Proof.
  unfold state_after. rewrite !run_cons. cbn [snd run]. reflexivity.
Qed.

(** A run moves the clocks of a live state and nothing else. *)
Lemma live_state_after (evs : list event) (st : state) :
  live (config st) = true →
  state_after evs st = elapse (total_ns evs) (last_wall evs (wall_clock st)) st.
Proof.
  revert st. induction evs as [| [ns wall | [url]] evs IH]; intros st Hlive.
  - cbn. by rewrite elapse_nothing.
  - rewrite state_after_cons. change (state_after [Elapse ns wall] st)
      with (elapse ns wall st).
    rewrite IH by done. cbn [total_ns last_wall wall_clock elapse].
    apply elapse_elapse.
  - rewrite state_after_cons.
    assert (state_after [Incoming (Request url)] st = st) as ->.
    { unfold state_after. cbn [run step].
      destruct (live_serve url st Hlive) as (r & -> & _). reflexivity. }
    by rewrite IH.
Qed.

(** Each exchange of a run is the answer given in the state that the
    events before it led to. *)
Lemma run_exchanges (evs : list event) (st : state) :
  Forall (λ x, ∃ before, x.2 = answer x.1 (state_after before st)) (run evs st).1.
Proof.
  revert st. induction evs as [| ev evs IH]; intros st; [constructor |].
  rewrite run_cons. cbn [fst]. apply Forall_app. split.
  - destruct ev as [ns wall | req]; [constructor |].
    destruct (step_incoming req st) as (r & written & -> & Hserve).
    constructor; [| constructor]. exists [].
    unfold answer, state_after. cbn [run fst snd]. by rewrite Hserve.
  - eapply Forall_impl; [apply (IH (step ev st).2) |].
    intros x [before Hx]. exists (ev :: before).
    rewrite state_after_cons. unfold state_after at 2. cbn [run].
    by destruct (step ev st) as [xs st'].
Qed.


Lemma main_clocks (h : host) (st : state) :
  main h = inr st →
  hr_elapsed st = boot_elapsed h ∧ wall_clock st = boot_wall h.
Proof.
  unfold main. destruct (load_config h _ _) as [cfg written].
  destruct (member cfg "security"); [done |]. by intros [= <-].
Qed.

Lemma getenv_or_set_or (e : gmap string string) (name fallback : string) :
  getenv_or e name fallback = set_or (e !! name) fallback.
Proof. unfold getenv_or, getenv. by destruct (e !! name) as [[| c s] |]. Qed.

Lemma set_or_nonempty (variable : option string) (fallback : string) :
  fallback ≠ "" → set_or variable fallback ≠ "".
Proof. by destruct variable as [[| c s] |]. Qed.

Lemma truthy_js_or (a b : value) : truthy b = true → truthy (js_or a b) = true.
Proof. unfold js_or. by destruct (truthy a) eqn:Ha. Qed.

Lemma unrouted_answer (url : string) (st : state) :
  unrouted url = true →
  answer (Request url) st
  = Some (res_json 404 (obj [
      ("error", VStr "Not Found");
      ("message", VStr ("Route " +:+ url +:+ " not found"));
      ("timestamp", VStr (wall_clock st)) ])).
Proof.
  intros Hmiss. unfold answer. by rewrite serve_unrouted, not_found_returns.
Qed.


(** *** Start-up *)


(** X4. An environment variable that is set to the empty string counts
    as not set. So the environment name and the log level are never
    empty, and the port is the number 3000 or else the string the
    variable holds, unconverted; [/health] reports them so, together
    with the package version or ["1.0.0"]. *)
Theorem empty_variable_counts_as_unset (h : host) (st : state) :
  main h = inr st →
  NODE_ENV st = set_or (process_env h !! "NODE_ENV") "development"
  ∧ LOG_LEVEL st = set_or (process_env h !! "LOG_LEVEL") "info"
  ∧ PORT st = match process_env h !! "PORT" with
              | Some EmptyString | None => VNum 3000
              | Some s => VStr s
              end
  ∧ NODE_ENV st ≠ ""
  ∧ LOG_LEVEL st ≠ ""
  ∧ ∀ evs url, route_matches "/health" (pathname url) = true →
      ∃ r, answer (Request url) (state_after evs st) = Some r
        ∧ field r "environment" = VStr (NODE_ENV st)
        ∧ opt_member (field r "config") "logLevel" = VStr (LOG_LEVEL st)
        ∧ opt_member (field r "config") "port" = PORT st
        ∧ field r "version"
          = VStr (set_or (process_env h !! "npm_package_version") "1.0.0").
Proof.
  intros Hmain.
  destruct (main_inr h st Hmain) as (_ & Henv & -> & -> & -> & _).
  unfold resolve_NODE_ENV, resolve_LOG_LEVEL, resolve_PORT, getenv.
  rewrite !getenv_or_set_or.
  split; [done |]. split; [done |].
  split; [by destruct (process_env h !! "PORT") as [[| c s] |] |].
  split; [by apply set_or_nonempty |]. split; [by apply set_or_nonempty |].
  intros evs url Hhit. rewrite answer_health by done.
  rewrite getenv_or_set_or, Henv. eexists. split; [reflexivity |].
  repeat split; try reflexivity.
  - by destruct (main_inr h st Hmain) as (_ & _ & _ & -> & _);
      unfold resolve_NODE_ENV; rewrite getenv_or_set_or.
  - by destruct (main_inr h st Hmain) as (_ & _ & _ & _ & -> & _);
      unfold resolve_LOG_LEVEL; rewrite getenv_or_set_or.
  - by destruct (main_inr h st Hmain) as (_ & _ & -> & _).
Qed.

Lemma empty_variable_counts_as_unset_witness :
  ∃ st r, main blank_host = inr st
    ∧ NODE_ENV st = "development"
    ∧ LOG_LEVEL st = "info"
    ∧ PORT st = VStr "8080"
    ∧ answer (Request "/health") (state_after [] st) = Some r
    ∧ opt_member (field r "config") "port" = VStr "8080".
Proof.
  destruct (main blank_host) as [err | st] eqn:Hmain; [discriminate Hmain |].
  destruct (empty_variable_counts_as_unset blank_host st Hmain)
    as (Hnode & Hlog & Hport & _ & _ & Hhealth).
  destruct (Hhealth [] "/health") as (r & Hanswer & _ & _ & Hreported & _);
    [reflexivity |].
  exists st, r. split; [reflexivity |].
  split; [by rewrite Hnode |]. split; [by rewrite Hlog |].
  split; [by rewrite Hport |]. split; [exact Hanswer |].
  by rewrite Hreported, Hport.
Defined.

(** *** Requests *)



(** X3. A started process keeps no trace of the requests it served: the
    state after a run is the state at start-up with the clocks moved on,
    so the answer to a request depends on the time that went by and not
    on which requests came before, or how many. *)
Theorem answers_do_not_depend_on_earlier_requests (h : host) (st : state) :
  main h = inr st →
  (∀ evs,
     state_after evs st
     = elapse (total_ns evs) (last_wall evs (wall_clock st)) st)
  ∧ (∀ evs1 evs2 req,
       total_ns evs1 = total_ns evs2 →
       last_wall evs1 (wall_clock st) = last_wall evs2 (wall_clock st) →
       answer req (state_after evs1 st) = answer req (state_after evs2 st)).
Proof.
  intros Hmain. apply main_inr in Hmain as (Hlive & _).
  split; [intros evs; by apply live_state_after |].
  intros evs1 evs2 req Htotal Hwall.
  by rewrite !live_state_after, Htotal, Hwall.
Qed.

Lemma answers_do_not_depend_on_earlier_requests_witness :
  ∃ st, main staging_host = inr st
    ∧ answer (Request "/features")
        (state_after [ Incoming (Request "/nope");
                       Elapse 700 "2024-05-01T10:00:00.700Z";
                       Incoming (Request "/") ] st)
      = answer (Request "/features")
          (state_after [ Elapse 700 "2024-05-01T10:00:00.700Z" ] st).
Proof.
  destruct (main staging_host) as [err | st] eqn:Hmain; [discriminate Hmain |].
  destruct (answers_do_not_depend_on_earlier_requests staging_host st Hmain)
    as [_ Hsame].
  exists st. split; [reflexivity |]. by apply Hsame.
Defined.

(** X11. After a run, [/health] reports as [uptime] the clock reading at
    start-up plus all the time the run let pass, in seconds, and as
    [timestamp] the latest wall-clock reading: both are read when the
    request is served, neither is kept from an earlier one. *)
Theorem health_reports_the_clocks (h : host) (st : state) (evs : list event)
    (url : string) :
  main h = inr st →
  route_matches "/health" (pathname url) = true →
  ∃ r, answer (Request url) (state_after evs st) = Some r
    ∧ field r "uptime" = VNum (seconds (boot_elapsed h + total_ns evs))
    ∧ field r "timestamp" = VStr (last_wall evs (boot_wall h)).
Proof.
  intros Hmain Hhit. rewrite answer_health by done.
  destruct (main_clocks h st Hmain) as [<- <-].
  rewrite live_state_after by (by apply main_inr in Hmain as (? & _)).
  eexists. split; [reflexivity |]. split; reflexivity.
Qed.

Lemma health_reports_the_clocks_witness :
  ∃ st r, main bare_host = inr st
    ∧ answer (Request "/health")
        (state_after [ Elapse 380000000 "2024-05-01T10:00:00.380Z";
                       Incoming (Request "/");
                       Elapse 500000000 "2024-05-01T10:00:00.880Z" ] st) = Some r
    ∧ field r "uptime" = VNum (seconds 1000000000)
    ∧ field r "timestamp" = VStr "2024-05-01T10:00:00.880Z".
Proof.
  destruct (main bare_host) as [err | st] eqn:Hmain; [discriminate Hmain |].
  destruct (health_reports_the_clocks bare_host st
              [ Elapse 380000000 "2024-05-01T10:00:00.380Z";
                Incoming (Request "/");
                Elapse 500000000 "2024-05-01T10:00:00.880Z" ] "/health" Hmain)
    as (r & Hanswer & Huptime & Htimestamp); [reflexivity |].
  exists st, r. split; [reflexivity |]. split; [exact Hanswer |].
  split; [exact Huptime | exact Htimestamp].
Defined.

(** *** What the answers read of the record *)



(** X6. When the fallback record is in use, the port in the [config] of
    [/api/status] and the port in the [config] of [/health] are the
    same value, the resolved [PORT]. *)
Theorem fallback_ports_agree (h : host) (e : error) :
  require_json h (record_path h) = inl e →
  ∃ st, main h = inr st
    ∧ ∀ evs, ∃ r_status r_health,
        answer (Request "/api/status") (state_after evs st) = Some r_status
        ∧ answer (Request "/health") (state_after evs st) = Some r_health
        ∧ opt_member (field r_status "config") "port" = PORT st
        ∧ opt_member (field r_health "config") "port" = PORT st.
Proof.
  intros Hreq. destruct (main_default h e Hreq) as (st & Hmain & Hcfg & _).
  exists st. split; [exact Hmain |]. intros evs.
  rewrite (answer_api_status h st Hmain), answer_health by done.
  do 2 eexists. split; [reflexivity |]. split; [reflexivity |].
  rewrite Hcfg. split; reflexivity.
Qed.

Lemma fallback_ports_agree_witness :
  ∃ st r_status r_health, main blank_host = inr st
    ∧ answer (Request "/api/status") (state_after [] st) = Some r_status
    ∧ answer (Request "/health") (state_after [] st) = Some r_health
    ∧ opt_member (field r_status "config") "port" = VStr "8080"
    ∧ opt_member (field r_health "config") "port" = VStr "8080".
Proof.
  destruct (fallback_ports_agree blank_host
              (module_not_found "../config/environments/development.json"))
    as (st & Hmain & Hports); [reflexivity |].
  destruct (Hports []) as (rs & rh & Hs & Hh & Hps & Hph).
  exists st, rs, rh. split; [exact Hmain |]. split; [exact Hs |].
  split; [exact Hh |]. rewrite Hps, Hph.
  destruct (main_inr blank_host st Hmain) as (_ & _ & -> & _). by split.
Defined.





(** *** The routes *)


(** X10. All the answers of a run that come from the four routes carry
    the same [environment], the resolved [NODE_ENV]; the 404 answers
    carry none. *)
Theorem answers_report_one_environment (h : host) (st : state) (evs : list event) :
  main h = inr st →
  Forall (λ x, ∃ r, x.2 = Some r
            ∧ field r "environment"
              = (if unrouted (originalUrl x.1) then VUndefined
                 else VStr (resolve_NODE_ENV (process_env h))))
    (run evs st).1.
Proof.
  intros Hmain. destruct (main_inr h st Hmain) as (_ & _ & _ & <- & _).
  eapply Forall_impl; [apply run_exchanges |].
  intros [[url] o] [before ->]. cbn [fst snd originalUrl].
  destruct (routed_or_unrouted url) as [(pattern & handler & Hin & Hhit) | Hmiss].
  - rewrite (routed_is_not_unrouted pattern handler) by done.
    unfold route_table in Hin. each_of Hin; simplify_eq.
    + rewrite answer_health by done. by eexists.
    + rewrite (answer_features h st Hmain) by done. by eexists.
    + rewrite (answer_root h st Hmain) by done. by eexists.
    + rewrite (answer_api_status h st Hmain) by done. by eexists.
  - rewrite unrouted_answer, Hmiss by done. by eexists.
Qed.

Lemma answers_report_one_environment_witness :
  ∃ st, main ghost_host = inr st
    ∧ Forall (λ x, ∃ r, x.2 = Some r
                ∧ field r "environment"
                  = (if unrouted (originalUrl x.1) then VUndefined else VStr "ghost"))
        (run [ Incoming (Request "/health");
               Incoming (Request "/features");
               Incoming (Request "/ghost") ] st).1.
Proof.
  destruct (main ghost_host) as [err | st] eqn:Hmain; [discriminate Hmain |].
  exists st. split; [reflexivity |].
  apply (answers_report_one_environment ghost_host st _ Hmain).
Defined.


(** *** The CORS options and the container's health check *)

(** X12. The options handed to [cors()] are the record's
    [security.cors] when that is truthy and the empty object otherwise,
    so they are never missing; with the fallback record they are the
    empty object. They are fixed at start-up: no request changes them. *)
Theorem cors_options_come_from_the_record (h : host) (st : state) :
  main h = inr st →
  truthy (cors_options st) = true
  ∧ (truthy (stored_cors (config st)) = true →
       cors_options st = stored_cors (config st))
  ∧ (truthy (stored_cors (config st)) = false → cors_options st = VObj ∅)
  ∧ (∀ e, require_json h (record_path h) = inl e → cors_options st = VObj ∅)
  ∧ ∀ evs, cors_options (state_after evs st) = cors_options st.
Proof.
  intros Hmain.
  assert (cors_options st = js_or (stored_cors (config st)) (VObj ∅)) as Hcors.
  { revert Hmain. unfold main, stored_cors.
    destruct (load_config h _ _) as [cfg written].
    destruct (member cfg "security") as [err | security] eqn:Hmember; [done |].
    intros [= <-]. apply member_inr_live in Hmember as [_ ->]. reflexivity. }
  rewrite Hcors.
  split; [by apply truthy_js_or |]. split; [apply js_or_truthy |].
  split; [apply js_or_falsy |]. split.
  - intros e Hreq. destruct (main_default h e Hreq) as (st' & Hmain' & Hcfg & _).
    rewrite Hmain in Hmain'. injection Hmain' as <-. by rewrite Hcfg.
  - intros evs. rewrite <- Hcors.
    by destruct (run_keeps evs st) as [(_ & _ & _ & _ & _ & <- & _) _].
Qed.

Lemma cors_options_come_from_the_record_witness :
  ∃ st, main staging_host = inr st
    ∧ cors_options (state_after [Incoming (Request "/")] st)
      = obj [("origin", VStr "*")].
Proof.
  destruct (main staging_host) as [err | st] eqn:Hmain; [discriminate Hmain |].
  destruct (cors_options_come_from_the_record staging_host st Hmain)
    as (_ & Hstored & _ & _ & Hfixed).
  exists st. split; [reflexivity |].
  rewrite Hfixed, Hstored; by injection Hmain as <-.
Defined.

(** X13. When [PORT] is not set the server listens on 3000, the port
    the container's health check calls, and [/health] answers it 200
    after any run, so the check exits with 0. This holds with the
    fallback record as well. *)
Theorem container_health_check_passes (h : host) (st : state) (evs : list event) :
  main h = inr st →
  process_env h !! "PORT" = None →
  listening st = VNum 3000
  ∧ ∃ r, answer (Request "/health") (state_after evs st) = Some r
      ∧ healthcheck_exit (status r) = 0%Z.
Proof.
  intros Hmain Hunset.
  destruct (main_inr h st Hmain) as (_ & _ & _ & _ & _ & -> & _).
  split; [by apply resolve_PORT_unset |].
  rewrite answer_health by done. by eexists.
Qed.

Lemma container_health_check_passes_witness :
  ∃ st r, main ghost_host = inr st
    ∧ listening st = VNum 3000
    ∧ answer (Request "/health")
        (state_after [Elapse 30000000000 "2024-05-01T10:00:30.000Z"] st) = Some r
    ∧ healthcheck_exit (status r) = 0%Z.
Proof.
  destruct (main ghost_host) as [err | st] eqn:Hmain; [discriminate Hmain |].
  destruct (container_health_check_passes ghost_host st
              [Elapse 30000000000 "2024-05-01T10:00:30.000Z"] Hmain)
    as (Hlisten & r & Hanswer & Hexit); [reflexivity |].
  by exists st, r.
Defined.
